(** * Slicr backend: the upload endpoint of [backend/main.py]

    The backend is one FastAPI module: it builds the application object,
    registers a permissive CORS middleware, and registers one endpoint,
    [slice_stl], under [POST /slice].  The endpoint reads the uploaded file
    and answers with its name, its size and a fixed message.

    The development follows the module top to bottom:
    - [Py]: the Python values the endpoint builds (None, str, int, dict);
    - [IO]: file objects, the process state and the effect monad in which
      [await file.read()] runs;
    - [Main]: the module itself ([app], [add_middleware], [slice_stl]);
    - [Framework]: the part of FastAPI/Starlette request handling that the
      service rests on: the multipart parser, the router, the validation of
      the parameter declared [file: UploadFile = File(...)].  The framework
      is not part of the repository; what is assumed about it is written
      out there. *)

From Stdlib Require Import ZArith String Ascii List Strings.Byte Bool Lia.
From stdpp Require Import base gmap strings list fin_maps.

Local Open Scope string_scope.
Local Open Scope Z_scope.

(** ** Python values *)

Module Py.

(** The values that occur in the endpoint's return value. *)
Inductive value : Type :=
| VNone
| VStr (s : string)
| VInt (n : Z).

(** An attribute typed [Optional[str]], as a Python value. *)
Definition of_optional_str (o : option string) : value :=
  match o with
  | Some s => VStr s
  | None => VNone
  end.

(** [len] on a bytes object.  Python integers are unbounded. *)
Definition len (b : list byte) : Z := Z.of_nat (length b).

(** Exceptions a file operation can raise.  The message of the
    [ValueError] depends on the kind of file object behind the upload (held
    in memory, or rolled over to disk) and is not modelled. *)
Inductive exn : Type :=
| ValueError.

End Py.

(** ** File objects and the effect monad *)

Module IO.
Import Py.

(** The file object behind an upload: its bytes and the read cursor. *)
Record SpooledFile : Type := mkSpooled {
  buffer : list byte;
  position : nat
}.

(** File objects are mutable and live on the heap; an [UploadFile] holds a
    reference to its file object.  A reference that is not in the table of
    open files denotes a closed file. *)
Definition handle : Type := positive.

Record UploadFile : Type := mkUpload {
  filename : option string;
  fileno : handle
}.

Record Process : Type := mkProcess {
  open_files : gmap handle SpooledFile
}.

Inductive result (A : Type) : Type :=
| Return (a : A)
| Raise (e : exn).
Arguments Return {A} a.
Arguments Raise {A} e.

Definition M (A : Type) : Type := Process -> result A * Process.

Definition ret {A} (a : A) : M A := fun st => (Return a, st).

Definition bind {A B} (m : M A) (k : A -> M B) : M B := fun st =>
  match m st with
  | (Return a, st') => k a st'
  | (Raise e, st') => (Raise e, st')
  end.

(** [f.read()] with no size argument: everything from the cursor to the end
    of the file; the cursor ends at the end of the file.  On a closed file
    it raises [ValueError]. *)
Definition read_all (sf : SpooledFile) : list byte * SpooledFile :=
  (drop (position sf) (buffer sf),
   mkSpooled (buffer sf) (Nat.max (position sf) (length (buffer sf)))).

Definition UploadFile_read (f : UploadFile) : M (list byte) := fun st =>
  match open_files st !! fileno f with
  | Some sf =>
      let '(bytes, sf') := read_all sf in
      (Return bytes, mkProcess (<[fileno f := sf']> (open_files st)))
  | None => (Raise ValueError, st)
  end.

End IO.

Notation "'let*' x ':=' c 'in' k" := (IO.bind c (fun x => k))
  (at level 10, x name, c at level 100, k at level 200).

(** ** The module [backend/main.py] *)

Module Main.
Import Py IO.

(** *** The application object *)

Record CORSMiddleware : Type := mkCORS {
  allow_origins : list string;
  allow_credentials : bool;
  allow_methods : list string;
  allow_headers : list string
}.

Inductive Middleware : Type :=
| CORS (options : CORSMiddleware).

(** [File(...)]: the Ellipsis marks a parameter without default. *)
Inductive Default : Type :=
| Ellipsis
| DefaultValue (v : value).

Inductive ParamKind : Type :=
| File.

Inductive Annotation : Type :=
| AnnUploadFile.

Record Param : Type := mkParam {
  param_name : string;
  param_annotation : Annotation;
  param_kind : ParamKind;
  param_default : Default
}.

(** The functions routes lead to: [slice_stl] of this module, and the four
    the framework defines for its documentation. *)
Inductive Endpoint : Type :=
| Endpoint_slice_stl
| Endpoint_openapi
| Endpoint_swagger_ui_html
| Endpoint_swagger_ui_redirect
| Endpoint_redoc_html.

Record Route : Type := mkRoute {
  route_methods : list string;
  route_path : string;
  route_endpoint : Endpoint;
  route_params : list Param
}.

(** The application: its middleware and its routes, in the order in which
    they were registered. *)
Record FastAPI : Type := mkApp {
  user_middleware : list Middleware;
  routes : list Route
}.

(** [FastAPI()] with no arguments: no middleware yet, and the four routes
    the constructor installs for the schema and the documentation pages,
    each for GET (and with it HEAD). *)
Definition FastAPI_new : FastAPI :=
  mkApp []
    [mkRoute ["GET"; "HEAD"] "/openapi.json" Endpoint_openapi [];
     mkRoute ["GET"; "HEAD"] "/docs" Endpoint_swagger_ui_html [];
     mkRoute ["GET"; "HEAD"] "/docs/oauth2-redirect"
       Endpoint_swagger_ui_redirect [];
     mkRoute ["GET"; "HEAD"] "/redoc" Endpoint_redoc_html []].

(** [app.add_middleware(cls, **options)] puts the middleware in front. *)
Definition add_middleware (m : Middleware) (a : FastAPI) : FastAPI :=
  mkApp (m :: user_middleware a) (routes a).

(** [@app.post(path)] appends a route for method POST. *)
Definition post (path : string) (e : Endpoint) (ps : list Param)
    (a : FastAPI) : FastAPI :=
  mkApp (user_middleware a) (routes a ++ [mkRoute ["POST"] path e ps])%list.

(** *** The endpoint *)

Definition slice_stl (file : UploadFile) : M (gmap string value) :=
  let* contents := UploadFile_read file in
  let size := len contents in
  ret (<["message" := VStr "Stub slice done."]>
         (<["size_bytes" := VInt size]>
            (<["filename" := of_optional_str (filename file)]> ∅))).

(** The signature of [slice_stl]: [file: UploadFile = File(...)]. *)
Definition slice_stl_params : list Param :=
  [mkParam "file" AnnUploadFile File Ellipsis].

(** *** The module's top-level statements, in order *)

Definition cors_options : CORSMiddleware :=
  mkCORS ["*"] true ["*"] ["*"].

Definition app : FastAPI :=
  let app := FastAPI_new in
  let app := add_middleware (CORS cors_options) app in
  let app := post "/slice" Endpoint_slice_stl slice_stl_params app in
  app.

End Main.

(** ** Request handling by the framework

    FastAPI and Starlette are libraries, not part of the repository.  This
    module writes out the behaviour of theirs that the service rests on:
    the multipart parser turns the parts of a request body into form
    values; a request is matched against the registered routes by path and
    method; the parameters the endpoint declares are looked up in the form
    data and validated before the endpoint is called; an uploaded file is
    handed to the endpoint as an [UploadFile] over a fresh file object
    positioned at its start, which is closed once the endpoint is done; a
    returned dict becomes the JSON body of a 200 response.  Request headers,
    and with them the preflight requests the CORS middleware answers, are
    not modelled. *)

Module Framework.
Import Py IO Main.

(** One value of the parsed form data ([FormData] holds [str] and
    [UploadFile] values): a text field, or an uploaded file with its
    [filename] attribute, typed [Optional[str]], and its bytes. *)
Inductive FormValue : Type :=
| FormStr (s : string)
| FormFile (name : option string) (content : list byte).

Record Request : Type := mkRequest {
  method : string;
  path : string;
  form : list (string * FormValue)
}.

(** [FormData.get(key)]: of several values under one key, the last. *)
Fixpoint form_get (key : string) (items : list (string * FormValue))
    : option FormValue :=
  match items with
  | [] => None
  | (k, v) :: rest =>
      match form_get key rest with
      | Some w => Some w
      | None => if String.eqb k key then Some v else None
      end
  end.

Definition is_file_part (v : FormValue) : bool :=
  match v with FormFile _ _ => true | FormStr _ => false end.

(** *** The multipart parser *)

Definition backslash : ascii := ascii_of_nat 92.
Definition line_feed : ascii := ascii_of_nat 10.

(** One part of a multipart body: the [name] and, when it has one, the
    [filename] parameter of its Content-Disposition header, and its data.
    The syntax of the header (quoting, encodings, character set) is below
    this model: [part_filename] is the value of the parameter. *)
Record Part : Type := mkPart {
  part_name : string;
  part_filename : option string;
  part_data : list byte
}.

Record HTTPRequest : Type := mkHTTP {
  http_method : string;
  http_path : string;
  parts : list Part
}.

Fixpoint contains (c : ascii) (s : string) : bool :=
  match s with
  | EmptyString => false
  | String c' rest => Ascii.eqb c' c || contains c rest
  end.

(** [s.split(sep)[-1]] *)
Fixpoint last_segment (sep : ascii) (s : string) : string :=
  match s with
  | EmptyString => EmptyString
  | String c rest =>
      if Ascii.eqb c sep then last_segment sep rest
      else if contains sep rest then last_segment sep rest
      else s
  end.

(** The parser's clean-up of a filename: a value that looks like a full
    Windows path, [value[1:3] == ":\\"] (a drive) or [value[:2] == "\\\\"]
    (a network share), is cut down to what follows its last backslash. *)
Definition is_full_path (s : string) : bool :=
  String.eqb (substring 1 2 s) (String ":" (String backslash EmptyString))
  || String.eqb (substring 0 2 s)
       (String backslash (String backslash EmptyString)).

Definition parse_filename (s : string) : string :=
  if is_full_path s then last_segment backslash s else s.

(** A part is a file exactly when its header has a filename parameter;
    otherwise it is a text field. *)
Definition parse_part (p : Part) : string * FormValue :=
  (part_name p,
   match part_filename p with
   | Some s => FormFile (Some (parse_filename s)) (part_data p)
   | None => FormStr (string_of_list_byte (part_data p))
   end).

Definition parse_form (ps : list Part) : list (string * FormValue) :=
  map parse_part ps.

Definition receive (r : HTTPRequest) : Request :=
  mkRequest (http_method r) (http_path r) (parse_form (parts r)).

(** The part that [FormData.get(key)] will answer with: the last one of
    that name. *)
Fixpoint last_part (key : string) (ps : list Part) : option Part :=
  match ps with
  | [] => None
  | p :: rest =>
      match last_part key rest with
      | Some q => Some q
      | None => if String.eqb (part_name p) key then Some p else None
      end
  end.

(** *** Routing *)

Inductive Match : Type :=
| MatchNone
| MatchPartial
| MatchFull.

(** A route's path is compiled to the regular expression [^path$], which
    [re.match] also lets match when one line feed follows the path. *)
Definition path_matches (pattern p : string) : bool :=
  String.eqb p pattern
  || String.eqb p (pattern ++ String line_feed EmptyString).

Definition route_match (req : Request) (r : Route) : Match :=
  if path_matches (route_path r) (path req)
  then if existsb (String.eqb (method req)) (route_methods r)
       then MatchFull
       else MatchPartial
  else MatchNone.

Definition is_full (m : Match) : bool :=
  match m with MatchFull => true | _ => false end.

Definition is_partial (m : Match) : bool :=
  match m with MatchPartial => true | _ => false end.

Definition is_match (m : Match) : bool :=
  match m with MatchNone => false | _ => true end.

(** The first route that matches both path and method. *)
Definition find_route (a : FastAPI) (req : Request) : option Route :=
  List.find (fun r => is_full (route_match req r)) (routes a).

(** [path.rstrip("/")] *)
Fixpoint rstrip_slash (s : string) : string :=
  match s with
  | EmptyString => EmptyString
  | String c rest =>
      match rstrip_slash rest with
      | EmptyString => if Ascii.eqb c "/" then EmptyString
                       else String c EmptyString
      | r => String c r
      end
  end.

Fixpoint ends_with_slash (s : string) : bool :=
  match s with
  | EmptyString => false
  | String c EmptyString => Ascii.eqb c "/"
  | String _ rest => ends_with_slash rest
  end.

(** The path tried when nothing matches: without its trailing slashes, or
    with one added. *)
Definition redirect_path (p : string) : string :=
  if ends_with_slash p then rstrip_slash p else p ++ "/".

(** *** Validation of the declared parameters *)

Inductive ValidationError : Type :=
| Missing (loc : string)
| ExpectedUploadFile (loc : string).

Record Upload : Type := mkUploadData {
  upload_filename : option string;
  upload_content : list byte
}.

Definition solve_param (items : list (string * FormValue)) (p : Param)
    : list ValidationError * list (string * Upload) :=
  match form_get (param_name p) items with
  | Some (FormFile name content) =>
      ([], [(param_name p, mkUploadData name content)])
  | Some (FormStr _) => ([ExpectedUploadFile (param_name p)], [])
  | None =>
      match param_default p with
      | Ellipsis => ([Missing (param_name p)], [])
      | DefaultValue _ => ([], [])
      end
  end.

Fixpoint solve_dependencies (items : list (string * FormValue))
    (ps : list Param) : list ValidationError * list (string * Upload) :=
  match ps with
  | [] => ([], [])
  | p :: rest =>
      let '(errors, values) := solve_param items p in
      let '(errors', values') := solve_dependencies items rest in
      ((errors ++ errors')%list, (values ++ values')%list)
  end.

(** *** Calling the endpoint *)

(** The answers of the service: the JSON body an endpoint returned, the
    error list of a failed validation, a server error, one of the
    framework's documentation pages (their bodies are not modelled), and the
    router's own answers; a redirect is given by the path it points to. *)
Inductive Outcome : Type :=
| JSONResponse (status_code : Z) (content : gmap string value)
| RequestValidationError (status_code : Z) (errors : list ValidationError)
| InternalServerError (status_code : Z)
| DocumentationResponse (status_code : Z)
| MethodNotAllowed (status_code : Z)
| RedirectResponse (status_code : Z) (location : string)
| NotFound (status_code : Z).

Definition is_success (c : Z) : bool := (200 <=? c) && (c <? 300).
Definition is_client_error (c : Z) : bool := (400 <=? c) && (c <? 500).
Definition is_server_error (c : Z) : bool := (500 <=? c) && (c <? 600).

Definition open_upload (u : Upload) (st : Process) : UploadFile * Process :=
  let h := fresh (dom (open_files st)) in
  (mkUpload (upload_filename u) h,
   mkProcess (<[h := mkSpooled (upload_content u) 0]> (open_files st))).

Definition close_upload (f : UploadFile) (st : Process) : Process :=
  mkProcess (delete (fileno f) (open_files st)).

Fixpoint kwargs_get (key : string) (kwargs : list (string * Upload))
    : option Upload :=
  match kwargs with
  | [] => None
  | (k, u) :: rest => if String.eqb k key then Some u else kwargs_get key rest
  end.

(** What becomes of the endpoint's result: a returned dict is the JSON body
    of a response with the route's default status code, 200; an exception
    that nothing catches is a 500. *)
Definition respond (r : result (gmap string value)) : Outcome :=
  match r with
  | Return d => JSONResponse 200 d
  | Raise _ => InternalServerError 500
  end.

(** Request handling is written over the function bound to the route
    /slice, so that what does not depend on that function can be said for
    every function. *)
Section Bound.

Variable body : UploadFile -> M (gmap string value).

Definition run_endpoint_with (e : Endpoint) (kwargs : list (string * Upload))
    (st : Process) : Outcome * Process :=
  match e with
  | Endpoint_slice_stl =>
      match kwargs_get "file" kwargs with
      | None => (InternalServerError 500, st)
      | Some u =>
          let '(f, st1) := open_upload u st in
          let '(r, st2) := body f st1 in
          (respond r, close_upload f st2)
      end
  | Endpoint_openapi
  | Endpoint_swagger_ui_html
  | Endpoint_swagger_ui_redirect
  | Endpoint_redoc_html => (DocumentationResponse 200, st)
  end.

Definition handle_route_with (r : Route) (req : Request) (st : Process)
    : Outcome * Process :=
  match solve_dependencies (form req) (route_params r) with
  | ([], kwargs) => run_endpoint_with (route_endpoint r) kwargs st
  | (errors, _) => (RequestValidationError 422 errors, st)
  end.

(** The router: the first route matching path and method handles the
    request; a path that matches under another method only is answered 405;
    a path that matches once its trailing slash is toggled is answered with
    a redirect; anything else is answered 404. *)
Definition dispatch_with (a : FastAPI) (req : Request) (st : Process)
    : Outcome * Process :=
  match find_route a req with
  | Some r => handle_route_with r req st
  | None =>
      if existsb (fun r => is_partial (route_match req r)) (routes a)
      then (MethodNotAllowed 405, st)
      else
        let req' := mkRequest (method req) (redirect_path (path req))
                      (form req) in
        if negb (String.eqb (path req) "/")
           && existsb (fun r => is_match (route_match req' r)) (routes a)
        then (RedirectResponse 307 (redirect_path (path req)), st)
        else (NotFound 404, st)
  end.

End Bound.

(** The application of this module: the function bound is [slice_stl]. *)
Definition dispatch (a : FastAPI) (req : Request) (st : Process)
    : Outcome * Process :=
  dispatch_with slice_stl a req st.

(** The service on a request as it arrives: parse, then dispatch. *)
Definition serve_with (body : UploadFile -> M (gmap string value))
    (a : FastAPI) (r : HTTPRequest) (st : Process) : Outcome * Process :=
  dispatch_with body a (receive r) st.

Definition serve (a : FastAPI) (r : HTTPRequest) (st : Process)
    : Outcome * Process :=
  serve_with slice_stl a r st.

(** The user middleware wraps the whole application: every request passes
    through it, whether or not a route matches. *)
Definition middleware_for (a : FastAPI) (req : Request) : list Middleware :=
  user_middleware a.

(** A list of allowed origins, methods or headers is a wildcard when it
    contains the star. *)
Definition wildcard (l : list string) : bool := existsb (String.eqb "*") l.

End Framework.

(** ** Example inputs *)

Module Examples.
Import Py IO Main Framework.

Definition five_bytes : list byte := [x73; x6f; x6c; x69; x64].

(** A process with two open files: the upload at handle 1 and an unrelated
    file at handle 2 whose cursor is in the middle. *)
Definition proc_a : Process :=
  mkProcess (<[1%positive := mkSpooled five_bytes 0]>
               (<[2%positive := mkSpooled [x00; x01] 1]> ∅)).

(** Another process, with the same bytes behind handle 7. *)
Definition proc_b : Process :=
  mkProcess (<[7%positive := mkSpooled five_bytes 0]> ∅).

Definition proc_empty_file : Process :=
  mkProcess (<[1%positive := mkSpooled [] 0]> ∅).

Definition upload_a : UploadFile := mkUpload (Some "a.stl") 1%positive.
Definition upload_b : UploadFile := mkUpload (Some "a.stl") 7%positive.
Definition upload_unnamed : UploadFile := mkUpload None 1%positive.

Definition req_upload : Request :=
  mkRequest "POST" "/slice" [("file", FormFile (Some "a.stl") five_bytes)].

Definition req_no_file : Request :=
  mkRequest "POST" "/slice" [("note", FormStr "hello")].


Definition http_upload : HTTPRequest :=
  mkHTTP "POST" "/slice" [mkPart "file" (Some "a.stl") five_bytes].



(** A part named [file] without filename parameter. *)
Definition http_unnamed_part : HTTPRequest :=
  mkHTTP "POST" "/slice" [mkPart "file" None five_bytes].

(** A function that could be bound to the route in place of [slice_stl]:
    it closes every file and raises. *)
Definition wrecking_body (f : UploadFile) : M (gmap string value) :=
  fun _ => (Raise ValueError, mkProcess ∅).

End Examples.

(** ** The endpoint *)

Import Py IO Main Framework.

Local Abbreviation response name size :=
  (<["message" := VStr "Stub slice done."]>
     (<["size_bytes" := VInt size]>
        (<["filename" := of_optional_str name]> (∅ : gmap string value)))).

Local Abbreviation slice_route :=
  (mkRoute ["POST"] "/slice" Endpoint_slice_stl slice_stl_params).

(** On an open file the endpoint returns; the only change to the process is
    the cursor of that file. *)
Lemma slice_stl_open (file : UploadFile) (st : Process) (sf : SpooledFile) :
  open_files st !! fileno file = Some sf ->
  slice_stl file st =
    (Return (response (filename file) (len (fst (read_all sf)))),
     mkProcess (<[fileno file := snd (read_all sf)]> (open_files st))).
Proof.
  intros Hopen. unfold slice_stl, bind, UploadFile_read.
  rewrite Hopen. reflexivity.
Qed.

(** On a closed file the read raises and nothing changes. *)
Lemma slice_stl_closed (file : UploadFile) (st : Process) :
  open_files st !! fileno file = None ->
  slice_stl file st = (Raise ValueError, st).
Proof.
  intros Hclosed. unfold slice_stl, bind, UploadFile_read.
  rewrite Hclosed. reflexivity.
Qed.

Lemma read_all_at_start (sf : SpooledFile) :
  position sf = 0%nat -> fst (read_all sf) = buffer sf.
Proof. intros Hpos. unfold read_all. rewrite Hpos. reflexivity. Qed.

Lemma response_filename (name : option string) (size : Z) :
  response name size !! "filename" = Some (of_optional_str name).
Proof.
  rewrite lookup_insert_ne by discriminate.
  rewrite lookup_insert_ne by discriminate.
  apply lookup_insert_eq.
Qed.

Lemma response_size_bytes (name : option string) (size : Z) :
  response name size !! "size_bytes" = Some (VInt size).
Proof.
  rewrite lookup_insert_ne by discriminate.
  apply lookup_insert_eq.
Qed.

Lemma response_message (name : option string) (size : Z) :
  response name size !! "message" = Some (VStr "Stub slice done.").
Proof. apply lookup_insert_eq. Qed.

Lemma response_dom (name : option string) (size : Z) :
  dom (response name size)
  = ({["filename"; "size_bytes"; "message"]} : gset string).
Proof. rewrite !dom_insert_L, dom_empty_L. set_solver. Qed.

(** C1.  For an upload whose file object is open, the endpoint returns and
    the "size_bytes" field of its response is the length of the bytes read;
    for an upload positioned at its start, as the endpoint receives it, that
    is the length N of the whole content, N = 0 included. *)
Theorem size_bytes_is_length (file : UploadFile) (st : Process)
    (sf : SpooledFile) :
  open_files st !! fileno file = Some sf ->
  exists d st',
    slice_stl file st = (Return d, st')
    /\ d !! "size_bytes" = Some (VInt (Z.of_nat (length (fst (read_all sf)))))
    /\ (position sf = 0%nat ->
        d !! "size_bytes" = Some (VInt (Z.of_nat (length (buffer sf))))).
Proof.
  intros Hopen. eexists _, _. split; [apply (slice_stl_open _ _ _ Hopen)|].
  split; [apply response_size_bytes|].
  intros Hpos. rewrite response_size_bytes. unfold len.
  rewrite (read_all_at_start _ Hpos). reflexivity.
Qed.

Lemma size_bytes_is_length_witness :
  exists d st',
    slice_stl Examples.upload_a Examples.proc_a = (Return d, st')
    /\ d !! "size_bytes" = Some (VInt 5).
Proof.
  destruct (size_bytes_is_length Examples.upload_a Examples.proc_a
              (mkSpooled Examples.five_bytes 0) eq_refl)
    as (d & st' & Hrun & _ & Hsize).
  exists d, st'. split; [exact Hrun | exact (Hsize eq_refl)].
Defined.

(** The endpoint passes the [filename] attribute of the upload on as it
    is, whatever the string and whatever the bytes of the file. *)
Lemma filename_is_echoed (file : UploadFile) (st : Process)
    (sf : SpooledFile) (s : string) :
  open_files st !! fileno file = Some sf ->
  filename file = Some s ->
  exists d st',
    slice_stl file st = (Return d, st') /\ d !! "filename" = Some (VStr s).
Proof.
  intros Hopen Hname. eexists _, _.
  split; [apply (slice_stl_open _ _ _ Hopen)|].
  rewrite response_filename, Hname. reflexivity.
Qed.

(** C3.  Whatever the filename and the bytes of the upload, the "message"
    field of the response is the string "Stub slice done.". *)
Theorem message_is_constant (file : UploadFile) (st : Process)
    (sf : SpooledFile) :
  open_files st !! fileno file = Some sf ->
  exists d st',
    slice_stl file st = (Return d, st')
    /\ d !! "message" = Some (VStr "Stub slice done.").
Proof.
  intros Hopen. eexists _, _.
  split; [apply (slice_stl_open _ _ _ Hopen) | apply response_message].
Qed.

Lemma message_is_constant_witness :
  exists d st',
    slice_stl Examples.upload_unnamed Examples.proc_empty_file = (Return d, st')
    /\ d !! "message" = Some (VStr "Stub slice done.").
Proof.
  exact (message_is_constant Examples.upload_unnamed Examples.proc_empty_file
           (mkSpooled [] 0) eq_refl).
Defined.

(** Called on an upload whose [filename] attribute is [None], the endpoint
    returns, and the "filename" field of the response is [None]. *)
Lemma missing_filename_is_null (file : UploadFile) (st : Process)
    (sf : SpooledFile) :
  open_files st !! fileno file = Some sf ->
  filename file = None ->
  exists d st',
    slice_stl file st = (Return d, st')
    /\ d !! "filename" = Some VNone
    /\ d !! "filename" <> Some (VStr "").
Proof.
  intros Hopen Hname. eexists _, _.
  split; [apply (slice_stl_open _ _ _ Hopen)|].
  rewrite response_filename, Hname. split; [reflexivity | discriminate].
Qed.

(** C10.  Two calls of the endpoint, in any two process states and on any
    two file objects, give the same result as soon as the two uploads carry
    the same filename and the same bytes. *)
Theorem slice_stl_deterministic (file1 file2 : UploadFile)
    (st1 st2 : Process) (sf1 sf2 : SpooledFile) :
  open_files st1 !! fileno file1 = Some sf1 ->
  open_files st2 !! fileno file2 = Some sf2 ->
  position sf1 = 0%nat ->
  position sf2 = 0%nat ->
  filename file1 = filename file2 ->
  buffer sf1 = buffer sf2 ->
  fst (slice_stl file1 st1) = fst (slice_stl file2 st2)
  /\ exists d, fst (slice_stl file1 st1) = Return d.
Proof.
  intros Hopen1 Hopen2 Hpos1 Hpos2 Hname Hbytes.
  rewrite (slice_stl_open _ _ _ Hopen1), (slice_stl_open _ _ _ Hopen2).
  cbn [fst]. rewrite (read_all_at_start _ Hpos1), (read_all_at_start _ Hpos2).
  rewrite Hname, Hbytes. split; [reflexivity | eexists; reflexivity].
Qed.

Lemma slice_stl_deterministic_witness :
  fst (slice_stl Examples.upload_a Examples.proc_a)
  = fst (slice_stl Examples.upload_b Examples.proc_b)
  /\ exists d, fst (slice_stl Examples.upload_a Examples.proc_a) = Return d.
Proof.
  exact (slice_stl_deterministic Examples.upload_a Examples.upload_b
           Examples.proc_a Examples.proc_b
           (mkSpooled Examples.five_bytes 0) (mkSpooled Examples.five_bytes 0)
           eq_refl eq_refl eq_refl eq_refl eq_refl eq_refl).
Defined.

(** ** Requests *)

Lemma form_get_In (key : string) (items : list (string * FormValue))
    (v : FormValue) :
  form_get key items = Some v -> In (key, v) items.
Proof.
  induction items as [|[k w] rest IH]; cbn [form_get]; [discriminate|].
  destruct (form_get key rest) as [w'|] eqn:Hrest.
  - intros [= <-]. right. apply IH. reflexivity.
  - destruct (String.eqb_spec k key) as [->|_]; [|discriminate].
    intros [= <-]. left. reflexivity.
Qed.

(** What the form answers under a key is the parse of the last part of
    that name. *)
Lemma form_get_parse_form (key : string) (ps : list Part) :
  form_get key (parse_form ps)
  = option_map (fun p => snd (parse_part p)) (last_part key ps).
Proof.
  unfold parse_form.
  induction ps as [|p rest IH]; [reflexivity|].
  cbn [map form_get last_part parse_part].
  rewrite IH. destruct (last_part key rest) as [q|]; [reflexivity|].
  cbn [option_map]. destruct (String.eqb (part_name p) key); reflexivity.
Qed.

Lemma path_matches_slice (p : string) :
  path_matches "/slice" p = true ->
  p = "/slice" \/ p = "/slice" ++ String line_feed EmptyString.
Proof.
  unfold path_matches. intros [H|H]%orb_true_iff;
    apply String.eqb_eq in H; [left | right]; exact H.
Qed.

(** A POST whose path matches /slice goes to the route of this module. *)
Lemma find_route_app_slice (req : Request) :
  method req = "POST" ->
  path_matches "/slice" (path req) = true ->
  find_route app req = Some slice_route.
Proof.
  destruct req as [m p f]. cbn [method path]. intros -> Hp.
  destruct (path_matches_slice _ Hp) as [-> | ->]; reflexivity.
Qed.

(** Every other request that finds a route finds one of the framework's,
    which has no parameters. *)
Lemma find_route_app_other (req : Request) (r : Route) :
  find_route app req = Some r ->
  route_endpoint r = Endpoint_slice_stl ->
  method req = "POST" /\ path_matches "/slice" (path req) = true.
Proof.
  intros Hfind Hend. apply find_some in Hfind as [Hin Hfull].
  cbn in Hin.
  destruct Hin as [<-|[<-|[<-|[<-|[<-|[]]]]]]; try discriminate Hend.
  unfold route_match in Hfull. cbn [route_path route_methods existsb] in Hfull.
  destruct (path_matches "/slice" (path req)); [|discriminate].
  split; [|reflexivity].
  rewrite orb_false_r in Hfull.
  destruct (String.eqb_spec (method req) "POST"); [assumption|discriminate].
Qed.

Lemma Endpoint_eq_slice (e : Endpoint) :
  e = Endpoint_slice_stl \/ e <> Endpoint_slice_stl.
Proof. destruct e; [left; reflexivity | right; discriminate ..]. Qed.

Lemma handle_route_builtin (body : UploadFile -> M (gmap string value))
    (r : Route) (req : Request) (st : Process) :
  In r (routes app) ->
  route_endpoint r <> Endpoint_slice_stl ->
  handle_route_with body r req st = (DocumentationResponse 200, st).
Proof.
  intros Hin Hend. cbn in Hin.
  destruct Hin as [<-|[<-|[<-|[<-|[<-|[]]]]]]; try reflexivity.
  exfalso. apply Hend. reflexivity.
Qed.

(** A request that is not a POST to /slice is answered the same whatever
    function is bound to that route. *)
Lemma dispatch_with_other (body1 body2 : UploadFile -> M (gmap string value))
    (req : Request) (st : Process) :
  ~ (method req = "POST" /\ path_matches "/slice" (path req) = true) ->
  dispatch_with body1 app req st = dispatch_with body2 app req st.
Proof.
  intros Hother. unfold dispatch_with.
  destruct (find_route app req) as [r|] eqn:Hfind; [|reflexivity].
  assert (route_endpoint r <> Endpoint_slice_stl) as Hend
    by (intros Hend; apply Hother, (find_route_app_other _ _ Hfind Hend)).
  apply find_some in Hfind as [Hin _].
  rewrite !(handle_route_builtin _ _ _ _ Hin Hend). reflexivity.
Qed.

Lemma dispatch_with_slice (body : UploadFile -> M (gmap string value))
    (req : Request) (st : Process) :
  method req = "POST" ->
  path_matches "/slice" (path req) = true ->
  dispatch_with body app req st = handle_route_with body slice_route req st.
Proof.
  intros Hm Hp. unfold dispatch_with.
  rewrite (find_route_app_slice _ Hm Hp). reflexivity.
Qed.

(** A fresh handle is not among the open files. *)
Lemma fresh_handle_closed (st : Process) :
  open_files st !! fresh (dom (open_files st)) = None.
Proof. apply not_elem_of_dom, is_fresh. Qed.

(** The endpoint called on an upload: the framework opens the file object,
    the endpoint reads it, the framework closes it; the file table ends as
    it began. *)
Lemma run_slice_stl (u : Upload) (kwargs : list (string * Upload))
    (st : Process) :
  kwargs_get "file" kwargs = Some u ->
  run_endpoint_with slice_stl Endpoint_slice_stl kwargs st
  = (JSONResponse 200 (response (upload_filename u) (len (upload_content u))),
     st).
Proof.
  intros Hget. unfold run_endpoint_with. rewrite Hget.
  unfold open_upload.
  set (h := fresh (dom (open_files st))).
  rewrite (slice_stl_open _ _ (mkSpooled (upload_content u) 0))
    by apply lookup_insert_eq.
  cbn [respond fileno filename open_files read_all fst snd position buffer
       close_upload drop].
  f_equal. rewrite insert_insert_eq.
  unfold close_upload. cbn [fileno open_files].
  rewrite delete_insert_id by apply fresh_handle_closed.
  destruct st. reflexivity.
Qed.

(** Validation of the one declared parameter, by what the form holds under
    the key "file". *)
Lemma solve_slice_stl_params (items : list (string * FormValue)) :
  solve_dependencies items slice_stl_params =
    match form_get "file" items with
    | Some (FormFile name content) =>
        ([], [("file", mkUploadData name content)])
    | Some (FormStr _) => ([ExpectedUploadFile "file"], [])
    | None => ([Missing "file"], [])
    end.
Proof.
  unfold slice_stl_params. cbn [solve_dependencies]. unfold solve_param.
  cbn [param_name param_default].
  destruct (form_get "file" items) as [[s|name content]|]; reflexivity.
Qed.

Lemma handle_route_upload (req : Request) (st : Process)
    (name : option string) (content : list byte) :
  form_get "file" (form req) = Some (FormFile name content) ->
  handle_route_with slice_stl slice_route req st
  = (JSONResponse 200 (response name (len content)), st).
Proof.
  intros Hfile. unfold handle_route_with. cbn [route_params route_endpoint].
  rewrite solve_slice_stl_params, Hfile.
  apply (run_slice_stl (mkUploadData name content)). reflexivity.
Qed.

(** Without a file under the key "file" validation fails, and the answer
    is the same whatever function is bound to the route. *)
Lemma handle_route_invalid (req : Request) :
  (forall name content,
     form_get "file" (form req) <> Some (FormFile name content)) ->
  exists e,
    solve_dependencies (form req) slice_stl_params = ([e], [])
    /\ forall (body : UploadFile -> M (gmap string value)) (st : Process),
         handle_route_with body slice_route req st
         = (RequestValidationError 422 [e], st).
Proof.
  intros Hnofile. unfold handle_route_with. cbn [route_params route_endpoint].
  rewrite solve_slice_stl_params.
  destruct (form_get "file" (form req)) as [[s|name content]|] eqn:Hget.
  - eexists. split; [reflexivity|]. intros body st. reflexivity.
  - exfalso. apply (Hnofile name content). reflexivity.
  - eexists. split; [reflexivity|]. intros body st. reflexivity.
Qed.

Lemma run_endpoint_state (e : Endpoint) (kwargs : list (string * Upload))
    (st : Process) :
  snd (run_endpoint_with slice_stl e kwargs st) = st.
Proof.
  destruct e; try reflexivity.
  destruct (kwargs_get "file" kwargs) as [u|] eqn:Hget.
  - rewrite (run_slice_stl _ _ _ Hget). reflexivity.
  - unfold run_endpoint_with. rewrite Hget. reflexivity.
Qed.

(** Whatever the request, the process state after it is the state before. *)
Lemma dispatch_state (req : Request) (st : Process) :
  snd (dispatch app req st) = st.
Proof.
  unfold dispatch, dispatch_with.
  destruct (find_route app req) as [r|].
  - unfold handle_route_with.
    destruct (solve_dependencies (form req) (route_params r))
      as [[|e errors] kwargs]; [apply run_endpoint_state | reflexivity].
  - destruct (existsb _ _); [reflexivity|].
    destruct (_ && _); reflexivity.
Qed.

(** *** The service on requests as they arrive *)

(** A part [file] with a filename parameter is served by the endpoint, under
    the filename the parser made of the parameter. *)
Lemma serve_upload (r : HTTPRequest) (st : Process) (p : Part) (s : string) :
  http_method r = "POST" ->
  path_matches "/slice" (http_path r) = true ->
  last_part "file" (parts r) = Some p ->
  part_filename p = Some s ->
  serve app r st
  = (JSONResponse 200
       (response (Some (parse_filename s)) (len (part_data p))), st).
Proof.
  intros Hm Hp Hlast Hname. unfold serve, serve_with.
  rewrite dispatch_with_slice by assumption.
  apply handle_route_upload. cbn [receive form].
  rewrite form_get_parse_form, Hlast. cbn [option_map parse_part snd].
  rewrite Hname. reflexivity.
Qed.

(** A part [file] without filename parameter is a text field: validation
    fails, whatever function is bound to the route. *)
Lemma serve_unnamed (body : UploadFile -> M (gmap string value))
    (r : HTTPRequest) (st : Process) (p : Part) :
  http_method r = "POST" ->
  path_matches "/slice" (http_path r) = true ->
  last_part "file" (parts r) = Some p ->
  part_filename p = None ->
  serve_with body app r st
  = (RequestValidationError 422 [ExpectedUploadFile "file"], st).
Proof.
  intros Hm Hp Hlast Hname. unfold serve_with.
  rewrite dispatch_with_slice by assumption.
  unfold handle_route_with. cbn [route_params route_endpoint receive form].
  rewrite solve_slice_stl_params, form_get_parse_form, Hlast.
  cbn [option_map parse_part snd]. rewrite Hname. reflexivity.
Qed.

Lemma path_matches_refl (p : string) : path_matches p p = true.
Proof. unfold path_matches. rewrite String.eqb_refl. reflexivity. Qed.




(** C4.  For every upload, that is, every POST to /slice whose part [file]
    is a file, the service answers with a success status and a body of
    exactly the three fields "filename", a string, "size_bytes", an
    integer, and "message", a string. *)
Theorem upload_response_shape (r : HTTPRequest) (st : Process) (p : Part)
    (s : string) :
  http_method r = "POST" ->
  http_path r = "/slice" ->
  last_part "file" (parts r) = Some p ->
  part_filename p = Some s ->
  exists c d,
    serve app r st = (JSONResponse c d, st)
    /\ is_success c = true
    /\ dom d = ({["filename"; "size_bytes"; "message"]} : gset string)
    /\ d !! "filename" = Some (VStr (parse_filename s))
    /\ d !! "size_bytes" = Some (VInt (Z.of_nat (length (part_data p))))
    /\ d !! "message" = Some (VStr "Stub slice done.").
Proof.
  intros Hm Hp Hlast Hname. eexists _, _. split.
  - apply (serve_upload r st p s Hm); [|assumption|assumption].
    rewrite Hp. apply path_matches_refl.
  - split; [reflexivity|]. split; [apply response_dom|].
    rewrite response_filename, response_size_bytes, response_message.
    repeat split; reflexivity.
Qed.

Lemma upload_response_shape_witness :
  exists c d,
    serve app Examples.http_upload Examples.proc_a
    = (JSONResponse c d, Examples.proc_a)
    /\ is_success c = true
    /\ dom d = ({["filename"; "size_bytes"; "message"]} : gset string)
    /\ d !! "filename" = Some (VStr "a.stl")
    /\ d !! "size_bytes" = Some (VInt 5)
    /\ d !! "message" = Some (VStr "Stub slice done.").
Proof.
  exact (upload_response_shape Examples.http_upload Examples.proc_a
           (mkPart "file" (Some "a.stl") Examples.five_bytes) "a.stl"
           eq_refl eq_refl eq_refl eq_refl).
Defined.

(** Every JSON body the service sends comes from the endpoint and has this
    shape; in particular its "filename" is never [None]. *)
Lemma json_response_shape (r : HTTPRequest) (st : Process) (c : Z)
    (d : gmap string value) :
  fst (serve app r st) = JSONResponse c d ->
  c = 200
  /\ dom d = ({["filename"; "size_bytes"; "message"]} : gset string)
  /\ (exists name, d !! "filename" = Some (VStr name))
  /\ (exists n, d !! "size_bytes" = Some (VInt n))
  /\ d !! "message" = Some (VStr "Stub slice done.").
Proof.
  unfold serve, serve_with, dispatch_with.
  destruct (find_route app (receive r)) as [rt|] eqn:Hfind.
  - pose proof Hfind as Hin. apply find_some in Hin as [Hin _].
    destruct (Endpoint_eq_slice (route_endpoint rt)) as [Hend|Hend].
    + assert (rt = slice_route) as ->.
      { cbn in Hin.
        destruct Hin as [<-|[<-|[<-|[<-|[<-|[]]]]]];
          try discriminate Hend; reflexivity. }
      unfold handle_route_with. cbn [route_params route_endpoint].
      rewrite solve_slice_stl_params. cbn [receive form].
      rewrite form_get_parse_form.
      destruct (last_part "file" (parts r)) as [p|]; cbn [option_map];
        [|discriminate].
      cbn [parse_part snd].
      destruct (part_filename p) as [s|]; [|discriminate].
      rewrite (run_slice_stl (mkUploadData (Some (parse_filename s))
                                (part_data p))) by reflexivity.
      cbn [fst upload_filename upload_content]. intros Heq.
      injection Heq as <- <-.
      split; [reflexivity|].
      split; [apply (response_dom (Some (parse_filename s)))|].
      rewrite (response_filename (Some (parse_filename s))).
      rewrite (response_size_bytes (Some (parse_filename s))).
      rewrite (response_message (Some (parse_filename s))).
      repeat split; eexists; reflexivity.
    + rewrite (handle_route_builtin _ _ _ _ Hin Hend). discriminate.
  - destruct (existsb _ _); [discriminate|].
    destruct (_ && _); discriminate.
Qed.

(** C5.  A POST request to /slice whose form data holds no file part is
    answered by the validation of the declared parameters with status 422,
    a client error.  The endpoint is not entered: the answer and the process
    state are the same whatever function is bound to the route, one that
    raises or changes the state included. *)
Theorem missing_file_is_client_error (req : Request) (st : Process) :
  method req = "POST" ->
  path req = "/slice" ->
  (forall k v, In (k, v) (form req) -> is_file_part v = false) ->
  exists e,
    solve_dependencies (form req) slice_stl_params = ([e], [])
    /\ dispatch app req st = (RequestValidationError 422 [e], st)
    /\ (forall (body : UploadFile -> M (gmap string value)) (st' : Process),
          dispatch_with body app req st'
          = (RequestValidationError 422 [e], st'))
    /\ is_client_error 422 = true
    /\ is_server_error 422 = false
    /\ is_success 422 = false.
Proof.
  intros Hm Hp Hnofile.
  assert (path_matches "/slice" (path req) = true) as Hpm
    by (rewrite Hp; apply path_matches_refl).
  destruct (handle_route_invalid req) as (e & Hsolve & Hhandle).
  - intros name content Hget. apply form_get_In, Hnofile in Hget.
    discriminate.
  - exists e. split; [exact Hsolve|]. split; [|split].
    + unfold dispatch. rewrite (dispatch_with_slice _ _ _ Hm Hpm).
      apply Hhandle.
    + intros body st'. rewrite (dispatch_with_slice _ _ _ Hm Hpm).
      apply Hhandle.
    + repeat split; reflexivity.
Qed.

Lemma missing_file_is_client_error_witness :
  exists e,
    solve_dependencies (form Examples.req_no_file) slice_stl_params = ([e], [])
    /\ dispatch app Examples.req_no_file Examples.proc_a
       = (RequestValidationError 422 [e], Examples.proc_a)
    /\ dispatch_with Examples.wrecking_body app Examples.req_no_file
         Examples.proc_a
       = (RequestValidationError 422 [e], Examples.proc_a).
Proof.
  destruct (missing_file_is_client_error Examples.req_no_file Examples.proc_a
              eq_refl eq_refl) as (e & Hsolve & Hdispatch & Hany & _).
  - intros k v [[= <- <-]|[]]. reflexivity.
  - exists e. split; [exact Hsolve|]. split; [exact Hdispatch|].
    apply Hany.
Defined.

(** C6, as stated: the application has five routes, not one; GET /docs is
    served by one the constructor installed, and a POST to /slice/ is
    answered with a redirect. *)
Lemma service_has_other_routes :
  length (routes app) = 5%nat
  /\ dispatch app (mkRequest "GET" "/docs" []) Examples.proc_a
     = (DocumentationResponse 200, Examples.proc_a)
  /\ dispatch app (mkRequest "GET" "/openapi.json" []) Examples.proc_a
     = (DocumentationResponse 200, Examples.proc_a)
  /\ dispatch app (mkRequest "POST" "/slice/" []) Examples.proc_a
     = (RedirectResponse 307 "/slice", Examples.proc_a).
Proof. repeat split; reflexivity. Qed.

(** C6, amended.  The module itself registers exactly one route, on top of
    those of the constructor: method POST, path /slice, endpoint
    [slice_stl] with the single parameter [file], an uploaded file.  No
    route of the constructor leads to [slice_stl]; a request reaches it
    exactly when it is a POST whose path matches /slice; every other
    request is answered without this module's code, the same whatever
    function is bound to the route; and a POST to /slice with one file
    part [file] is served by the endpoint. *)
Theorem module_registers_post_slice :
  routes app
  = (routes FastAPI_new
     ++ [mkRoute ["POST"] "/slice" Endpoint_slice_stl
           [mkParam "file" AnnUploadFile File Ellipsis]])%list
  /\ (forall r,
        In r (routes FastAPI_new) -> route_endpoint r <> Endpoint_slice_stl)
  /\ (forall req,
        (exists r, find_route app req = Some r
                   /\ route_endpoint r = Endpoint_slice_stl)
        <-> method req = "POST" /\ path_matches "/slice" (path req) = true)
  /\ (forall (body1 body2 : UploadFile -> M (gmap string value)) req st,
        ~ (method req = "POST" /\ path_matches "/slice" (path req) = true) ->
        dispatch_with body1 app req st = dispatch_with body2 app req st)
  /\ (forall name content st,
        exists d,
          serve app (mkHTTP "POST" "/slice" [mkPart "file" (Some name) content])
            st
          = (JSONResponse 200 d, st)).
Proof.
  split; [reflexivity|]. split; [|split; [|split]].
  - intros r Hin. cbn in Hin.
    destruct Hin as [<-|[<-|[<-|[<-|[]]]]]; discriminate.
  - intros req. split.
    + intros (r & Hfind & Hend). apply (find_route_app_other _ _ Hfind Hend).
    + intros [Hm Hp]. exists slice_route.
      split; [apply (find_route_app_slice _ Hm Hp) | reflexivity].
  - intros body1 body2 req st. apply dispatch_with_other.
  - intros name content st. eexists.
    apply (serve_upload _ st (mkPart "file" (Some name) content) name);
      reflexivity.
Qed.

(** C9, as stated, at a part [file] without filename: the service answers
    422, not a response with a null filename. *)
Lemma unnamed_part_is_not_served :
  serve app Examples.http_unnamed_part Examples.proc_a
  = (RequestValidationError 422 [ExpectedUploadFile "file"], Examples.proc_a)
  /\ ~ (exists c d,
          fst (serve app Examples.http_unnamed_part Examples.proc_a)
          = JSONResponse c d).
Proof.
  assert (serve app Examples.http_unnamed_part Examples.proc_a
          = (RequestValidationError 422 [ExpectedUploadFile "file"],
             Examples.proc_a)) as Hserve
    by (apply (serve_unnamed slice_stl Examples.http_unnamed_part
                 Examples.proc_a (mkPart "file" None Examples.five_bytes));
        reflexivity).
  split; [exact Hserve|]. rewrite Hserve. intros (c & d & H). discriminate.
Qed.

(** C9, amended.  A part [file] that carries no filename is not a file part
    for the service: it is parsed as a text field, validation fails with
    status 422, and the endpoint is not entered, whatever function is bound
    to the route.  Only an [UploadFile] whose [filename] is [None], handed
    to [slice_stl] by a direct call, is answered with the "filename" field
    [None] rather than the empty string or an error. *)
Theorem unnamed_part_is_rejected (r : HTTPRequest) (st : Process)
    (p : Part) :
  http_method r = "POST" ->
  http_path r = "/slice" ->
  last_part "file" (parts r) = Some p ->
  part_filename p = None ->
  (forall body : UploadFile -> M (gmap string value),
     serve_with body app r st
     = (RequestValidationError 422 [ExpectedUploadFile "file"], st))
  /\ is_client_error 422 = true
  /\ (forall file st' sf,
        open_files st' !! fileno file = Some sf ->
        filename file = None ->
        exists d st'',
          slice_stl file st' = (Return d, st'')
          /\ d !! "filename" = Some VNone
          /\ d !! "filename" <> Some (VStr "")).
Proof.
  intros Hm Hp Hlast Hname. split; [|split; [reflexivity|]].
  - intros body. apply (serve_unnamed body r st p Hm); [|assumption..].
    rewrite Hp. apply path_matches_refl.
  - apply missing_filename_is_null.
Qed.

Lemma unnamed_part_is_rejected_witness :
  serve_with Examples.wrecking_body app Examples.http_unnamed_part
    Examples.proc_a
  = (RequestValidationError 422 [ExpectedUploadFile "file"], Examples.proc_a).
Proof.
  exact (proj1 (unnamed_part_is_rejected Examples.http_unnamed_part
                  Examples.proc_a (mkPart "file" None Examples.five_bytes)
                  eq_refl eq_refl eq_refl eq_refl)
           Examples.wrecking_body).
Defined.
(** C7.  Every request passes through one middleware, the CORS middleware,
    configured with the wildcard for origins, for methods and for headers,
    and with credentials allowed. *)
Theorem cors_is_permissive (req : Request) :
  exists options,
    middleware_for app req = [CORS options]
    /\ allow_origins options = ["*"]
    /\ allow_methods options = ["*"]
    /\ allow_headers options = ["*"]
    /\ allow_credentials options = true
    /\ wildcard (allow_origins options) = true
    /\ wildcard (allow_methods options) = true
    /\ wildcard (allow_headers options) = true.
Proof. exists cors_options. repeat split; reflexivity. Qed.

(** C8.  Handling a request changes nothing that outlives it: the process
    state after any request is the state before it, and the file object of
    the upload is closed again.  While it runs, the endpoint touches no
    file object but the upload's own, and of that one only the cursor: its
    bytes stay as they are. *)
Theorem request_leaves_state_unchanged :
  (forall req st, snd (dispatch app req st) = st)
  /\ (forall req st,
        open_files (snd (dispatch app req st))
          !! fresh (dom (open_files st)) = None)
  /\ (forall file st h,
        h <> fileno file ->
        open_files (snd (slice_stl file st)) !! h = open_files st !! h)
  /\ (forall file st,
        buffer <$> (open_files (snd (slice_stl file st)) !! fileno file)
        = buffer <$> (open_files st !! fileno file)).
Proof.
  split; [exact dispatch_state|]. split; [|split].
  - intros req st. rewrite dispatch_state. apply fresh_handle_closed.
  - intros file st h Hother.
    destruct (open_files st !! fileno file) as [sf|] eqn:Hopen.
    + rewrite (slice_stl_open _ _ _ Hopen). cbn [snd open_files].
      apply lookup_insert_ne. congruence.
    + rewrite (slice_stl_closed _ _ Hopen). reflexivity.
  - intros file st.
    destruct (open_files st !! fileno file) as [sf|] eqn:Hopen.
    + rewrite (slice_stl_open _ _ _ Hopen). cbn [snd open_files].
      rewrite lookup_insert_eq. reflexivity.
    + rewrite (slice_stl_closed _ _ Hopen). cbn [snd].
      rewrite Hopen. reflexivity.
Qed.

(** ** The specification's two examples, and the absence of server errors *)

(** A 5-byte file named a.stl. *)
Example upload_five_bytes (st : Process) :
  dispatch app Examples.req_upload st
  = (JSONResponse 200
       (<["message" := VStr "Stub slice done."]>
          (<["size_bytes" := VInt 5]> (<["filename" := VStr "a.stl"]> ∅))),
     st).
Proof.
  unfold dispatch. rewrite dispatch_with_slice by reflexivity.
  apply (handle_route_upload Examples.req_upload st (Some "a.stl")
           Examples.five_bytes).
  reflexivity.
Qed.

(** A 0-byte file named empty.stl. *)
Example upload_zero_bytes (st : Process) :
  dispatch app
    (mkRequest "POST" "/slice" [("file", FormFile (Some "empty.stl") [])]) st
  = (JSONResponse 200
       (<["message" := VStr "Stub slice done."]>
          (<["size_bytes" := VInt 0]> (<["filename" := VStr "empty.stl"]> ∅))),
     st).
Proof.
  unfold dispatch. rewrite dispatch_with_slice by reflexivity.
  apply (handle_route_upload _ st (Some "empty.stl") []).
  reflexivity.
Qed.

(** The file object the framework hands to the endpoint is open, so the
    read never raises: no request is answered with a server error. *)
Lemma dispatch_no_server_error (req : Request) (st : Process) (c : Z) :
  fst (dispatch app req st) <> InternalServerError c.
Proof.
  unfold dispatch, dispatch_with.
  destruct (find_route app req) as [r|] eqn:Hfind.
  - pose proof Hfind as Hin. apply find_some in Hin as [Hin _].
    destruct (Endpoint_eq_slice (route_endpoint r)) as [Hend|Hend].
    + assert (r = slice_route) as ->.
      { cbn in Hin.
        destruct Hin as [<-|[<-|[<-|[<-|[<-|[]]]]]];
          try discriminate Hend; reflexivity. }
      destruct (form_get "file" (form req)) as [[s|name content]|] eqn:Hget.
      * destruct (handle_route_invalid req) as (e & _ & ->); [|discriminate].
        intros name content. rewrite Hget. discriminate.
      * rewrite (handle_route_upload _ _ _ _ Hget). discriminate.
      * destruct (handle_route_invalid req) as (e & _ & ->); [|discriminate].
        intros name content. rewrite Hget. discriminate.
    + rewrite (handle_route_builtin _ _ _ _ Hin Hend). discriminate.
  - destruct (existsb _ _); [discriminate|].
    destruct (_ && _); discriminate.
Qed.

(** ** Further properties of the endpoint *)

Lemma read_all_length (sf : SpooledFile) :
  Z.of_nat (length (fst (read_all sf)))
  = Z.max 0 (Z.of_nat (length (buffer sf)) - Z.of_nat (position sf)).
Proof. unfold read_all. cbn [fst]. rewrite length_drop. lia. Qed.

(** Reading a file whose cursor is where a read left it gives no bytes and
    leaves the file as it is. *)
Lemma read_all_again (sf : SpooledFile) :
  read_all (snd (read_all sf)) = ([], snd (read_all sf)).
Proof.
  unfold read_all. cbn [snd fst buffer position]. f_equal.
  - apply drop_ge. lia.
  - f_equal. lia.
Qed.

Lemma of_optional_str_inj (o1 o2 : option string) :
  of_optional_str o1 = of_optional_str o2 -> o1 = o2.
Proof. destruct o1, o2; cbn; congruence. Qed.

(** X1.  The endpoint does not rewind the file: with N bytes behind the
    upload and the cursor at p, "size_bytes" is N - p, and 0 when the cursor
    is at or past the end; so it always lies between 0 and N. *)
Theorem size_bytes_from_cursor (file : UploadFile) (st : Process)
    (sf : SpooledFile) :
  open_files st !! fileno file = Some sf ->
  exists d st',
    slice_stl file st = (Return d, st')
    /\ d !! "size_bytes"
       = Some (VInt (Z.max 0 (Z.of_nat (length (buffer sf))
                              - Z.of_nat (position sf))))
    /\ (exists n, d !! "size_bytes" = Some (VInt n)
                  /\ 0 <= n <= Z.of_nat (length (buffer sf))).
Proof.
  intros Hopen. eexists _, _.
  split; [apply (slice_stl_open _ _ _ Hopen)|].
  rewrite response_size_bytes. unfold len. rewrite read_all_length.
  split; [reflexivity|]. eexists. split; [reflexivity | lia].
Qed.

Lemma size_bytes_from_cursor_witness :
  exists d st',
    slice_stl (mkUpload (Some "b.stl") 2%positive) Examples.proc_a
    = (Return d, st')
    /\ d !! "size_bytes" = Some (VInt 1).
Proof.
  destruct (size_bytes_from_cursor (mkUpload (Some "b.stl") 2%positive)
              Examples.proc_a (mkSpooled [x00; x01] 1) eq_refl)
    as (d & st' & Hrun & Hsize & _).
  exists d, st'. split; [exact Hrun | exact Hsize].
Defined.

(** X3.  The endpoint consumes the file.  Called a second time on the same
    upload it still returns, with the same filename and message, but
    "size_bytes" is 0; and the second call changes nothing any more. *)
Theorem slice_stl_twice (file : UploadFile) (st : Process)
    (sf : SpooledFile) :
  open_files st !! fileno file = Some sf ->
  exists d1 st1 d2,
    slice_stl file st = (Return d1, st1)
    /\ slice_stl file st1 = (Return d2, st1)
    /\ d2 !! "size_bytes" = Some (VInt 0)
    /\ d2 !! "filename" = d1 !! "filename"
    /\ d2 !! "message" = d1 !! "message".
Proof.
  intros Hopen. eexists _, _, _.
  split; [apply (slice_stl_open _ _ _ Hopen)|].
  split.
  - rewrite (slice_stl_open _ _ (snd (read_all sf)))
      by (cbn [open_files]; apply lookup_insert_eq).
    rewrite read_all_again. cbn [fst snd open_files].
    rewrite insert_insert_eq. reflexivity.
  - rewrite !response_size_bytes, !response_filename, !response_message.
    repeat split; reflexivity.
Qed.

Lemma slice_stl_twice_witness :
  exists d1 st1 d2,
    slice_stl Examples.upload_a Examples.proc_a = (Return d1, st1)
    /\ slice_stl Examples.upload_a st1 = (Return d2, st1)
    /\ d2 !! "size_bytes" = Some (VInt 0)
    /\ d2 !! "filename" = d1 !! "filename"
    /\ d2 !! "message" = d1 !! "message".
Proof.
  exact (slice_stl_twice Examples.upload_a Examples.proc_a
           (mkSpooled Examples.five_bytes 0) eq_refl).
Defined.

(** X4.  The response tells the filename and the number of bytes, and
    nothing else about the upload: two uploads, each at its start, get the
    same response exactly when they have the same filename and the same
    number of bytes, whatever those bytes are. *)
Theorem same_response_iff (file1 file2 : UploadFile) (st1 st2 : Process)
    (sf1 sf2 : SpooledFile) :
  open_files st1 !! fileno file1 = Some sf1 ->
  open_files st2 !! fileno file2 = Some sf2 ->
  position sf1 = 0%nat ->
  position sf2 = 0%nat ->
  fst (slice_stl file1 st1) = fst (slice_stl file2 st2)
  <-> filename file1 = filename file2
      /\ length (buffer sf1) = length (buffer sf2).
Proof.
  intros Hopen1 Hopen2 Hpos1 Hpos2.
  rewrite (slice_stl_open _ _ _ Hopen1), (slice_stl_open _ _ _ Hopen2).
  cbn [fst]. rewrite (read_all_at_start _ Hpos1), (read_all_at_start _ Hpos2).
  unfold len. split.
  - intros Heq.
    assert (Hd : response (filename file1) (Z.of_nat (length (buffer sf1)))
                 = response (filename file2) (Z.of_nat (length (buffer sf2))))
      by congruence.
    split.
    + apply of_optional_str_inj.
      pose proof (f_equal (fun d => d !! "filename") Hd) as Hf.
      cbv beta in Hf. rewrite !response_filename in Hf. congruence.
    + apply Nat2Z.inj.
      pose proof (f_equal (fun d => d !! "size_bytes") Hd) as Hs.
      cbv beta in Hs. rewrite !response_size_bytes in Hs. congruence.
  - intros [-> ->]. reflexivity.
Qed.

Lemma same_response_iff_witness :
  fst (slice_stl Examples.upload_a Examples.proc_a)
  = fst (slice_stl Examples.upload_b
           (mkProcess (<[7%positive := mkSpooled [x00; x00; x00; x00; x00] 0]>
                         (∅ : gmap handle SpooledFile)))).
Proof.
  refine (proj2 (same_response_iff Examples.upload_a Examples.upload_b
                   Examples.proc_a _ (mkSpooled Examples.five_bytes 0)
                   (mkSpooled [x00; x00; x00; x00; x00] 0) _ _ _ _) _).
  - reflexivity.
  - reflexivity.
  - reflexivity.
  - reflexivity.
  - split; reflexivity.
Defined.

(** X5.  Calls of the endpoint on two different file objects do not
    interfere: run one after the other in either order, each gives the
    response it gives when run alone, and the process ends in the same
    state. *)
Theorem slice_stl_calls_commute (file1 file2 : UploadFile) (st : Process)
    (sf1 sf2 : SpooledFile) :
  fileno file1 <> fileno file2 ->
  open_files st !! fileno file1 = Some sf1 ->
  open_files st !! fileno file2 = Some sf2 ->
  exists d1 d2 st',
    (let* r1 := slice_stl file1 in
     let* r2 := slice_stl file2 in ret (r1, r2)) st = (Return (d1, d2), st')
    /\ (let* r2 := slice_stl file2 in
        let* r1 := slice_stl file1 in ret (r1, r2)) st = (Return (d1, d2), st')
    /\ fst (slice_stl file1 st) = Return d1
    /\ fst (slice_stl file2 st) = Return d2.
Proof.
  intros Hne Hopen1 Hopen2. eexists _, _, _.
  unfold bind at 1 2.
  rewrite (slice_stl_open _ _ _ Hopen1).
  rewrite (slice_stl_open file2 _ sf2)
    by (cbn [open_files]; rewrite lookup_insert_ne by exact Hne;
        exact Hopen2).
  split; [reflexivity|].
  unfold bind at 1 2.
  rewrite (slice_stl_open _ _ _ Hopen2).
  rewrite (slice_stl_open file1 _ sf1)
    by (cbn [open_files]; rewrite lookup_insert_ne by congruence;
        exact Hopen1).
  cbn [open_files ret].
  rewrite (insert_insert_ne _ _ _ _ _ Hne).
  repeat split; reflexivity.
Qed.

Lemma slice_stl_calls_commute_witness :
  exists d1 d2 st',
    (let* r1 := slice_stl Examples.upload_a in
     let* r2 := slice_stl (mkUpload None 2%positive) in ret (r1, r2))
      Examples.proc_a = (Return (d1, d2), st')
    /\ (let* r2 := slice_stl (mkUpload None 2%positive) in
        let* r1 := slice_stl Examples.upload_a in ret (r1, r2))
         Examples.proc_a = (Return (d1, d2), st')
    /\ fst (slice_stl Examples.upload_a Examples.proc_a) = Return d1
    /\ fst (slice_stl (mkUpload None 2%positive) Examples.proc_a) = Return d2.
Proof.
  apply (slice_stl_calls_commute Examples.upload_a (mkUpload None 2%positive)
           Examples.proc_a (mkSpooled Examples.five_bytes 0)
           (mkSpooled [x00; x01] 1)).
  - discriminate.
  - reflexivity.
  - reflexivity.
Defined.
